(** * IOAVServiceBridge: the [mkf_*] forwarding shim

    A shallow embedding of
    [Sources/IOAVServiceBridge/IOAVServiceBridge.c] and of the prototypes in
    [Sources/IOAVServiceBridge/include/IOAVServiceBridge.h].

    The four C functions do nothing but call an [extern] function of the
    private framework, casting the service handle between [IOAVServiceRef]
    and [void *].  The framework itself is closed source, so every theorem
    below is stated for an arbitrary implementation of it: a C computation is
    a tree of effects, the framework (and the memory) answers the effects,
    and [exec] runs a computation against such an environment while logging
    the effects it performed. *)

From Stdlib Require Import ZArith List Bool Lia.
Import ListNotations.
Local Open Scope Z_scope.

(** ** C data *)

(** A machine address; the null pointer is address 0. *)
Definition address := Z.

(** [void *]. *)
Record voidp : Type := VoidP { voidp_addr : address }.

(** Modelled from the spec: [CFTypeRef] comes from CoreFoundation's headers,
    which are not part of the repository; it is an untyped reference
    ([const void *]), kept apart from [void *] so that the casts of the
    source stay visible. *)
Record CFTypeRef : Type := CFType { cf_addr : address }.

(** [typedef CFTypeRef IOAVServiceRef;] (IOAVServiceBridge.c, line 4). *)
Definition IOAVServiceRef : Type := CFTypeRef.

(** Modelled from the spec: [CFAllocatorRef] comes from CoreFoundation's
    headers; the spec calls it an allocator reference (nullable). *)
Record CFAllocatorRef : Type := CFAllocator { allocator_addr : address }.

(** [uint32_t], as the integer it denotes.  The shim's parameters and the
    framework's have this same type, so a call converts nothing. *)
Definition uint32_t : Type := Z.

(** Modelled from the spec: [io_service_t] comes from IOKit's headers; the
    spec calls it a kernel service identifier. *)
Definition io_service_t : Type := Z.

(** Modelled from the spec: [IOReturn] comes from IOKit's headers; the spec
    calls it a 32-bit status code and writes its values as 32-bit patterns
    (0xE00002C2).  0 is success. *)
Definition IOReturn : Type := Z.

Definition kIOReturnSuccess : IOReturn := 0.

Definition NULL : voidp := VoidP 0.

Definition voidp_is_null (p : voidp) : bool := voidp_addr p =? 0.

Definition ref_is_null (r : CFTypeRef) : bool := cf_addr r =? 0.

(** The cast of an [IOAVServiceRef] to [void *], applied to the result of
    both constructors (lines 14, 18). *)
Definition IOAVServiceRef_to_voidp (r : IOAVServiceRef) : voidp :=
  VoidP (cf_addr r).

(** The cast of a [void *] to [IOAVServiceRef], applied to the [service]
    parameter of both I2C functions (lines 23, 28). *)
Definition voidp_to_IOAVServiceRef (p : voidp) : IOAVServiceRef :=
  CFType (voidp_addr p).

(** ** Effects of a C function

    What a C function body can do to the outside: access memory, manage the
    heap, call an external function.  The four [extern] declarations of
    IOAVServiceBridge.c (lines 6 to 11) are the only external functions. *)
Inductive Event : Type :=
| Load (p : address)
| Store (p : address) (byte : Z)
| Malloc (size : Z)
| Free (p : address)
| IOAVServiceCreate (allocator : CFAllocatorRef)
| IOAVServiceCreateWithService (allocator : CFAllocatorRef)
    (service : io_service_t)
| IOAVServiceWriteI2C (service : IOAVServiceRef) (chipAddress : uint32_t)
    (dataAddress : uint32_t) (data : voidp) (dataLength : uint32_t)
| IOAVServiceReadI2C (service : IOAVServiceRef) (chipAddress : uint32_t)
    (dataAddress : uint32_t) (data : voidp) (dataLength : uint32_t).

(** The type of the answer to an effect: the declared return types of the
    [extern] functions. *)
Definition ret_type (e : Event) : Type :=
  match e with
  | Load _ => Z
  | Store _ _ => unit
  | Malloc _ => address
  | Free _ => unit
  | IOAVServiceCreate _ => IOAVServiceRef
  | IOAVServiceCreateWithService _ _ => IOAVServiceRef
  | IOAVServiceWriteI2C _ _ _ _ _ => IOReturn
  | IOAVServiceReadI2C _ _ _ _ _ => IOReturn
  end.

Definition is_framework_call (e : Event) : bool :=
  match e with
  | IOAVServiceCreate _ | IOAVServiceCreateWithService _ _
  | IOAVServiceWriteI2C _ _ _ _ _ | IOAVServiceReadI2C _ _ _ _ _ => true
  | Load _ | Store _ _ | Malloc _ | Free _ => false
  end.

(** The service handle a framework call receives, if it takes one. *)
Definition handle_received (e : Event) : option address :=
  match e with
  | IOAVServiceWriteI2C service _ _ _ _
  | IOAVServiceReadI2C service _ _ _ _ => Some (cf_addr service)
  | _ => None
  end.

(** A computation returning an [R]: it returns, or performs an effect and
    goes on with the answer. *)
Inductive Comp (R : Type) : Type :=
| Ret (r : R)
| Vis (e : Event) (k : ret_type e -> Comp R).

Arguments Ret {R} r.
Arguments Vis {R} e k.

Fixpoint bind {A B : Type} (c : Comp A) (f : A -> Comp B) : Comp B :=
  match c with
  | Ret a => f a
  | Vis e k => Vis e (fun x => bind (k x) f)
  end.

Definition call (e : Event) : Comp (ret_type e) := Vis e (fun x => Ret x).

Notation "x <- c1 ;; c2" := (bind c1 (fun x => c2))
  (at level 61, c1 at next level, right associativity).

(** An environment over states [W] (memory, kernel objects, hardware):
    it answers an effect in a state and gives the next state, or [None] when
    the effect does not return (a crash or a call that blocks forever). *)
Definition Machine (W : Type) : Type :=
  forall e : Event, W -> option (ret_type e * W).

(** The outcome of a run: the effects performed, in order, and the returned
    value with the final state, or [None] when an effect did not return. *)
Definition Outcome (R W : Type) : Type := (list Event * option (R * W))%type.

Fixpoint exec {R W : Type} (m : Machine W) (c : Comp R) (w : W)
  : Outcome R W :=
  match c with
  | Ret r => ([], Some (r, w))
  | Vis e k =>
      match m e w with
      | None => ([e], None)
      | Some (x, w') =>
          let (t, o) := exec m (k x) w' in (e :: t, o)
      end
  end.

Definition calls {R W : Type} (o : Outcome R W) : list Event := fst o.

Definition returned {R W : Type} (o : Outcome R W) : option R :=
  option_map fst (snd o).

Definition final_state {R W : Type} (o : Outcome R W) : option W :=
  option_map snd (snd o).

Definition returns {R W : Type} (o : Outcome R W) : bool :=
  match snd o with Some _ => true | None => false end.

(** The answer of the environment to one effect, as an outcome. *)
Definition answer {W : Type} (m : Machine W) (e : Event) (w : W)
  : Outcome (ret_type e) W := ([e], m e w).

(** Apply [f] to the returned value of an outcome. *)
Definition map_result {A B W : Type} (f : A -> B) (o : Outcome A W)
  : Outcome B W :=
  (fst o, option_map (fun rw => (f (fst rw), snd rw)) (snd o)).

(** ** The shim (IOAVServiceBridge.c, lines 13 to 29) *)

Definition mkf_IOAVServiceCreate (allocator : CFAllocatorRef) : Comp voidp :=
  r <- call (IOAVServiceCreate allocator) ;;
  Ret (IOAVServiceRef_to_voidp r).

Definition mkf_IOAVServiceCreateWithService (allocator : CFAllocatorRef)
    (service : io_service_t) : Comp voidp :=
  r <- call (IOAVServiceCreateWithService allocator service) ;;
  Ret (IOAVServiceRef_to_voidp r).

Definition mkf_IOAVServiceWriteI2C (service : voidp) (chipAddress : uint32_t)
    (dataAddress : uint32_t) (data : voidp) (dataLength : uint32_t)
  : Comp IOReturn :=
  call (IOAVServiceWriteI2C (voidp_to_IOAVServiceRef service) chipAddress
          dataAddress data dataLength).

Definition mkf_IOAVServiceReadI2C (service : voidp) (chipAddress : uint32_t)
    (dataAddress : uint32_t) (data : voidp) (dataLength : uint32_t)
  : Comp IOReturn :=
  call (IOAVServiceReadI2C (voidp_to_IOAVServiceRef service) chipAddress
          dataAddress data dataLength).

(** ** The public interface (include/IOAVServiceBridge.h) *)

(** One call through the public interface: which of the four functions, and
    its arguments. *)
Inductive shim_call : Type :=
| Create (allocator : CFAllocatorRef)
| CreateWithService (allocator : CFAllocatorRef) (service : io_service_t)
| WriteI2C (service : voidp) (chipAddress : uint32_t)
    (dataAddress : uint32_t) (data : voidp) (dataLength : uint32_t)
| ReadI2C (service : voidp) (chipAddress : uint32_t)
    (dataAddress : uint32_t) (data : voidp) (dataLength : uint32_t).

(** The declared return types: [void *] and [IOReturn]. *)
Definition shim_ret (c : shim_call) : Type :=
  match c with
  | Create _ | CreateWithService _ _ => voidp
  | WriteI2C _ _ _ _ _ | ReadI2C _ _ _ _ _ => IOReturn
  end.

Definition shim (c : shim_call) : Comp (shim_ret c) :=
  match c with
  | Create allocator => mkf_IOAVServiceCreate allocator
  | CreateWithService allocator service =>
      mkf_IOAVServiceCreateWithService allocator service
  | WriteI2C service chipAddress dataAddress data dataLength =>
      mkf_IOAVServiceWriteI2C service chipAddress dataAddress data dataLength
  | ReadI2C service chipAddress dataAddress data dataLength =>
      mkf_IOAVServiceReadI2C service chipAddress dataAddress data dataLength
  end.

(** The nullability annotations of the header: the allocators and the
    returned handles are [_Nullable]; [service] and [data] of the two I2C
    functions are [_Nonnull].  [header_nonnull_ok c] holds when the call
    respects the annotations. *)
Definition header_nonnull_ok (c : shim_call) : bool :=
  match c with
  | Create _ | CreateWithService _ _ => true
  | WriteI2C service _ _ data _
  | ReadI2C service _ _ data _ =>
      negb (voidp_is_null service) && negb (voidp_is_null data)
  end.

(** The service handle the caller passes in, if the function takes one. *)
Definition handle_given (c : shim_call) : option address :=
  match c with
  | WriteI2C service _ _ _ _
  | ReadI2C service _ _ _ _ => Some (voidp_addr service)
  | Create _ | CreateWithService _ _ => None
  end.

(** ** The delegation the spec describes

    Section 4.1 of the spec: each operation is a direct, unconditional
    delegation to the private function of the same name.  [spec_delegate] is
    that framework call, [spec_result] the value handed back to the caller
    for the framework's answer. *)
Definition spec_delegate (c : shim_call) : Event :=
  match c with
  | Create allocator => IOAVServiceCreate allocator
  | CreateWithService allocator service =>
      IOAVServiceCreateWithService allocator service
  | WriteI2C service chipAddress dataAddress data dataLength =>
      IOAVServiceWriteI2C (CFType (voidp_addr service)) chipAddress
        dataAddress data dataLength
  | ReadI2C service chipAddress dataAddress data dataLength =>
      IOAVServiceReadI2C (CFType (voidp_addr service)) chipAddress
        dataAddress data dataLength
  end.

Definition spec_result (c : shim_call)
  : ret_type (spec_delegate c) -> shim_ret c :=
  match c return ret_type (spec_delegate c) -> shim_ret c with
  | Create _ | CreateWithService _ _ => fun r => VoidP (cf_addr r)
  | WriteI2C _ _ _ _ _ | ReadI2C _ _ _ _ _ => fun status => status
  end.

(** ** Callers of the public interface

    The callers of the shim are not part of the repository.  A caller is any
    program that returns, performs an effect of its own (it owns the
    allocators and the buffers), or calls one of the four functions of the
    header and goes on with what the function returned. *)
Inductive Client (R : Type) : Type :=
| Done (r : R)
| Own (e : Event) (k : ret_type e -> Client R)
| Invoke (c : shim_call) (k : shim_ret c -> Client R).

Arguments Done {R} r.
Arguments Own {R} e k.
Arguments Invoke {R} c k.

(** The caller linked against the shim: each call through the interface runs
    the body of the [mkf_] function. *)
Fixpoint link_shim {R : Type} (p : Client R) : Comp R :=
  match p with
  | Done r => Ret r
  | Own e k => Vis e (fun x => link_shim (k x))
  | Invoke c k => bind (shim c) (fun x => link_shim (k x))
  end.

(** The same caller linked against the private framework itself: each call
    through the interface is the framework call of [spec_delegate]. *)
Fixpoint link_direct {R : Type} (p : Client R) : Comp R :=
  match p with
  | Done r => Ret r
  | Own e k => Vis e (fun x => link_direct (k x))
  | Invoke c k =>
      Vis (spec_delegate c) (fun x => link_direct (k (spec_result c x)))
  end.

(** Every effect the caller performs on its own satisfies [P]. *)
Fixpoint own_effects {R : Type} (P : Event -> bool) (p : Client R) : Prop :=
  match p with
  | Done _ => True
  | Own e k => P e = true /\ forall x, own_effects P (k x)
  | Invoke c k => forall x, own_effects P (k x)
  end.

(** ** A mock framework

    A small implementation of the framework to run the shim against:
    handles are handed out from a counter, a constructor given service 0
    fails with a null handle, writes are recorded, and reads answer the
    status the state holds.  It has no heap: a memory effect does not
    return. *)
Module Mock.

Record World : Type := mkWorld {
  next_handle : address;
  read_status : IOReturn;
  written : list (address * uint32_t * uint32_t * address * uint32_t)
}.

Definition fresh (w : World) : IOAVServiceRef * World :=
  (CFType (next_handle w),
   mkWorld (next_handle w + 16) (read_status w) (written w)).

Definition framework : Machine World :=
  fun e w =>
    match e return option (ret_type e * World) with
    | Load _ | Store _ _ | Malloc _ | Free _ => None
    | IOAVServiceCreate _ => Some (fresh w)
    | IOAVServiceCreateWithService _ service =>
        if service =? 0 then Some (CFType 0, w) else Some (fresh w)
    | IOAVServiceWriteI2C service chip reg data len =>
        if ref_is_null service then Some (0xE00002BC, w)
        else Some (kIOReturnSuccess,
                   mkWorld (next_handle w) (read_status w)
                     ((cf_addr service, chip, reg, voidp_addr data, len)
                        :: written w))
    | IOAVServiceReadI2C _ _ _ _ _ => Some (read_status w, w)
    end.

Definition boot : World := mkWorld 0x1000 0xE00002C2 [].

Definition allocator : CFAllocatorRef := CFAllocator 0.

(** A caller that makes a handle, fills a four-byte buffer of its own and
    writes it to the display. *)
Definition set_brightness : Client (voidp * IOReturn) :=
  Invoke (Create allocator) (fun h : voidp =>
  Own (Store 0x2000 0x51) (fun _ =>
  Invoke (WriteI2C h 0x37 0x51 (VoidP 0x2000) 4) (fun status : IOReturn =>
  Done (h, status)))).

(** A caller that only goes through the interface: two handles, one read. *)
Definition probe : Client (voidp * voidp * IOReturn) :=
  Invoke (Create allocator) (fun h1 : voidp =>
  Invoke (CreateWithService allocator 7) (fun h2 : voidp =>
  Invoke (ReadI2C h2 0x37 0x51 (VoidP 0x3000) 11) (fun status : IOReturn =>
  Done (h1, h2, status)))).

(** The mock framework with a one-cell heap: stores return, loads answer 0. *)
Definition with_heap : Machine World :=
  fun e w =>
    match e return option (ret_type e * World) with
    | Load _ => Some (0, w)
    | Store _ _ => Some (tt, w)
    | other => framework other w
    end.

End Mock.

(** * Properties *)

(** ** Running computations *)

Lemma exec_call (W : Type) (m : Machine W) (e : Event) (w : W) :
  exec m (call e) w = answer m e w.
Proof.
  unfold call, answer. simpl.
  destruct (m e w) as [[x w'] | ]; reflexivity.
Qed.

Lemma exec_bind (A B W : Type) (m : Machine W) (c : Comp A)
    (f : A -> Comp B) :
  forall w : W,
    exec m (bind c f) w =
    match exec m c w with
    | (t, Some (a, w')) => let (t', o) := exec m (f a) w' in (t ++ t', o)
    | (t, None) => (t, None)
    end.
Proof.
  induction c as [a | e k IH]; intro w; simpl.
  - destruct (exec m (f a) w); reflexivity.
  - destruct (m e w) as [[x w'] | ]; [ | reflexivity ].
    rewrite IH.
    destruct (exec m (k x) w') as [t [[a w''] | ]]; [ | reflexivity ].
    destruct (exec m (f a) w''); reflexivity.
Qed.

Lemma exec_call_then (B W : Type) (m : Machine W) (e : Event)
    (f : ret_type e -> Comp B) (w : W) :
  exec m (x <- call e ;; f x) w =
  match m e w with
  | Some (x, w') => let (t, o) := exec m (f x) w' in (e :: t, o)
  | None => ([e], None)
  end.
Proof. reflexivity. Qed.

Lemma exec_call_ret (B W : Type) (m : Machine W) (e : Event)
    (f : ret_type e -> B) (w : W) :
  exec m (x <- call e ;; Ret (f x)) w = map_result f (answer m e w).
Proof.
  rewrite exec_call_then. unfold map_result, answer. simpl.
  destruct (m e w) as [[x w'] | ]; reflexivity.
Qed.

(** Run the framework call a shim function consists of. *)
Ltac run_call :=
  match goal with
  | |- context [@exec ?R ?W ?m (call ?e) ?w] =>
      rewrite (exec_call W m e w : @exec R W m (call e) w = (e :: nil, m e w));
      unfold voidp_to_IOAVServiceRef
  end.

(** ** The casts *)

Lemma ref_of_voidp_of_ref (r : IOAVServiceRef) :
  voidp_to_IOAVServiceRef (IOAVServiceRef_to_voidp r) = r.
Proof. destruct r; reflexivity. Qed.

Lemma voidp_of_ref_of_voidp (p : voidp) :
  IOAVServiceRef_to_voidp (voidp_to_IOAVServiceRef p) = p.
Proof. destruct p; reflexivity. Qed.

Lemma voidp_null_iff (r : IOAVServiceRef) :
  voidp_is_null (IOAVServiceRef_to_voidp r) = ref_is_null r.
Proof. reflexivity. Qed.

Lemma null_ref_to_voidp (r : IOAVServiceRef) :
  ref_is_null r = true -> IOAVServiceRef_to_voidp r = NULL.
Proof.
  destruct r as [a]. unfold ref_is_null, IOAVServiceRef_to_voidp, NULL; simpl.
  intro H. apply Z.eqb_eq in H. now subst a.
Qed.

(** ** The shim is the delegation of the spec *)

Lemma shim_delegates (W : Type) (m : Machine W) (c : shim_call) (w : W) :
  exec m (shim c) w = map_result (spec_result c) (answer m (spec_delegate c) w).
Proof.
  destruct c as [a | a s | h chip reg data len | h chip reg data len].
  - apply (exec_call_ret voidp W m (IOAVServiceCreate a)).
  - apply (exec_call_ret voidp W m (IOAVServiceCreateWithService a s)).
  - change (exec m (shim (WriteI2C h chip reg data len)) w)
      with (exec m (call (spec_delegate (WriteI2C h chip reg data len))) w).
    rewrite exec_call. unfold map_result, answer; simpl.
    destruct (m _ w) as [[status w'] | ]; reflexivity.
  - change (exec m (shim (ReadI2C h chip reg data len)) w)
      with (exec m (call (spec_delegate (ReadI2C h chip reg data len))) w).
    rewrite exec_call. unfold map_result, answer; simpl.
    destruct (m _ w) as [[status w'] | ]; reflexivity.
Qed.

(** ** Forwarding fidelity *)

(** C1. For every handle, chip address, data address, buffer and length, and
    whatever the framework is and whatever state it is in,
    [mkf_IOAVServiceWriteI2C] performs the single call
    [IOAVServiceWriteI2C] with the handle's address and the four other
    arguments as received, and its outcome (status code and resulting state,
    or no return) is the outcome of that call. *)
Theorem mkf_IOAVServiceWriteI2C_forwards
    (W : Type) (m : Machine W) (w : W) (service : voidp)
    (chipAddress dataAddress : uint32_t) (data : voidp)
    (dataLength : uint32_t) :
  exec m (mkf_IOAVServiceWriteI2C service chipAddress dataAddress data
            dataLength) w
  = ([IOAVServiceWriteI2C (CFType (voidp_addr service)) chipAddress
        dataAddress data dataLength],
     m (IOAVServiceWriteI2C (CFType (voidp_addr service)) chipAddress
          dataAddress data dataLength) w).
Proof.
  exact (exec_call W m
           (IOAVServiceWriteI2C (voidp_to_IOAVServiceRef service) chipAddress
              dataAddress data dataLength) w).
Qed.

(** C2. [mkf_IOAVServiceReadI2C] performs the single call
    [IOAVServiceReadI2C] with every argument as received and its outcome is
    the outcome of that call; in particular, when the framework answers
    status 0xE00002C2, the shim returns 0xE00002C2. *)
Theorem mkf_IOAVServiceReadI2C_forwards
    (W : Type) (m : Machine W) (w : W) (service : voidp)
    (chipAddress dataAddress : uint32_t) (data : voidp)
    (dataLength : uint32_t) :
  exec m (mkf_IOAVServiceReadI2C service chipAddress dataAddress data
            dataLength) w
  = ([IOAVServiceReadI2C (CFType (voidp_addr service)) chipAddress
        dataAddress data dataLength],
     m (IOAVServiceReadI2C (CFType (voidp_addr service)) chipAddress
          dataAddress data dataLength) w)
  /\ (forall w' : W,
        m (IOAVServiceReadI2C (CFType (voidp_addr service)) chipAddress
             dataAddress data dataLength) w = Some (0xE00002C2, w') ->
        returned (exec m (mkf_IOAVServiceReadI2C service chipAddress
                            dataAddress data dataLength) w)
        = Some 0xE00002C2).
Proof.
  assert (E : exec m (mkf_IOAVServiceReadI2C service chipAddress dataAddress
                        data dataLength) w
              = ([IOAVServiceReadI2C (CFType (voidp_addr service))
                    chipAddress dataAddress data dataLength],
                 m (IOAVServiceReadI2C (CFType (voidp_addr service))
                      chipAddress dataAddress data dataLength) w)).
  { exact (exec_call W m
             (IOAVServiceReadI2C (voidp_to_IOAVServiceRef service)
                chipAddress dataAddress data dataLength) w). }
  split; [ exact E | ].
  intros w' H. rewrite E. unfold returned; simpl. rewrite H. reflexivity.
Qed.

(** The scenario of the spec for C2: the mock framework answers
    0xE00002C2 to a read, and so does the shim. *)
Lemma mkf_IOAVServiceReadI2C_forwards_witness :
  returned (exec Mock.framework
              (mkf_IOAVServiceReadI2C (VoidP 0x1000) 0x37 0x51 (VoidP 0x2000)
                 11) Mock.boot)
  = Some 0xE00002C2.
Proof.
  apply (proj2 (mkf_IOAVServiceReadI2C_forwards Mock.World Mock.framework
                  Mock.boot (VoidP 0x1000) 0x37 0x51 (VoidP 0x2000) 11)
           Mock.boot).
  reflexivity.
Defined.

(** C3. For every allocator, the null one included, [mkf_IOAVServiceCreate]
    performs the single call [IOAVServiceCreate] on that allocator and
    returns the handle the call returned, at the same address, so null
    exactly when the framework's handle is null. *)
Theorem mkf_IOAVServiceCreate_returns_underlying
    (W : Type) (m : Machine W) (w : W) (allocator : CFAllocatorRef) :
  exec m (mkf_IOAVServiceCreate allocator) w
  = match m (IOAVServiceCreate allocator) w with
    | Some (r, w') =>
        ([IOAVServiceCreate allocator], Some (VoidP (cf_addr r), w'))
    | None => ([IOAVServiceCreate allocator], None)
    end
  /\ option_map voidp_is_null
       (returned (exec m (mkf_IOAVServiceCreate allocator) w))
     = option_map (fun rw => ref_is_null (fst rw))
         (m (IOAVServiceCreate allocator) w).
Proof.
  unfold mkf_IOAVServiceCreate. rewrite exec_call_then.
  destruct (m (IOAVServiceCreate allocator) w) as [[r w'] | ];
    split; reflexivity.
Qed.

(** C4. For every allocator and service object,
    [mkf_IOAVServiceCreateWithService] performs the single call
    [IOAVServiceCreateWithService] on both as received and returns the
    handle the call returned, at the same address. *)
Theorem mkf_IOAVServiceCreateWithService_forwards
    (W : Type) (m : Machine W) (w : W) (allocator : CFAllocatorRef)
    (service : io_service_t) :
  exec m (mkf_IOAVServiceCreateWithService allocator service) w
  = match m (IOAVServiceCreateWithService allocator service) w with
    | Some (r, w') =>
        ([IOAVServiceCreateWithService allocator service],
         Some (VoidP (cf_addr r), w'))
    | None => ([IOAVServiceCreateWithService allocator service], None)
    end.
Proof.
  unfold mkf_IOAVServiceCreateWithService. rewrite exec_call_then.
  destruct (m (IOAVServiceCreateWithService allocator service) w)
    as [[r w'] | ]; reflexivity.
Qed.

(** ** Failures *)

(** C5. Whatever the framework is: a null handle returned by either private
    constructor comes back from the shim as the null pointer, and a status
    code other than success returned by either private I2C function comes
    back as that same code, after the one framework call and nothing else;
    and the shim has no failure of its own, since a null handle or a status
    it returns is always the one the framework returned for that call. *)
Theorem shim_surfaces_failures_verbatim (W : Type) (m : Machine W) (w : W) :
  (forall allocator r w',
      m (IOAVServiceCreate allocator) w = Some (r, w') ->
      ref_is_null r = true ->
      exec m (mkf_IOAVServiceCreate allocator) w
      = ([IOAVServiceCreate allocator], Some (NULL, w')))
  /\ (forall allocator service r w',
      m (IOAVServiceCreateWithService allocator service) w = Some (r, w') ->
      ref_is_null r = true ->
      exec m (mkf_IOAVServiceCreateWithService allocator service) w
      = ([IOAVServiceCreateWithService allocator service], Some (NULL, w')))
  /\ (forall service chip reg data len status w',
      m (IOAVServiceWriteI2C (CFType (voidp_addr service)) chip reg data len)
        w = Some (status, w') ->
      status <> kIOReturnSuccess ->
      exec m (mkf_IOAVServiceWriteI2C service chip reg data len) w
      = ([IOAVServiceWriteI2C (CFType (voidp_addr service)) chip reg data
            len], Some (status, w')))
  /\ (forall service chip reg data len status w',
      m (IOAVServiceReadI2C (CFType (voidp_addr service)) chip reg data len)
        w = Some (status, w') ->
      status <> kIOReturnSuccess ->
      exec m (mkf_IOAVServiceReadI2C service chip reg data len) w
      = ([IOAVServiceReadI2C (CFType (voidp_addr service)) chip reg data
            len], Some (status, w')))
  /\ (forall allocator h,
      returned (exec m (mkf_IOAVServiceCreate allocator) w) = Some h ->
      voidp_is_null h = true ->
      exists r w',
        m (IOAVServiceCreate allocator) w = Some (r, w')
        /\ ref_is_null r = true)
  /\ (forall allocator service h,
      returned (exec m (mkf_IOAVServiceCreateWithService allocator service) w)
      = Some h ->
      voidp_is_null h = true ->
      exists r w',
        m (IOAVServiceCreateWithService allocator service) w = Some (r, w')
        /\ ref_is_null r = true)
  /\ (forall service chip reg data len status,
      returned (exec m (mkf_IOAVServiceWriteI2C service chip reg data len) w)
      = Some status ->
      exists w',
        m (IOAVServiceWriteI2C (CFType (voidp_addr service)) chip reg data
             len) w = Some (status, w'))
  /\ (forall service chip reg data len status,
      returned (exec m (mkf_IOAVServiceReadI2C service chip reg data len) w)
      = Some status ->
      exists w',
        m (IOAVServiceReadI2C (CFType (voidp_addr service)) chip reg data
             len) w = Some (status, w')).
Proof.
  repeat split.
  - intros a r w' H Hnull.
    unfold mkf_IOAVServiceCreate. rewrite exec_call_then, H. simpl.
    now rewrite (null_ref_to_voidp r Hnull).
  - intros a s r w' H Hnull.
    unfold mkf_IOAVServiceCreateWithService. rewrite exec_call_then, H. simpl.
    now rewrite (null_ref_to_voidp r Hnull).
  - intros h chip reg data len status w' H _.
    unfold mkf_IOAVServiceWriteI2C. run_call. simpl. now rewrite H.
  - intros h chip reg data len status w' H _.
    unfold mkf_IOAVServiceReadI2C. run_call. simpl. now rewrite H.
  - intros a h. unfold mkf_IOAVServiceCreate. rewrite exec_call_then.
    destruct (m (IOAVServiceCreate a) w) as [[r w'] | ]; simpl;
      [ | discriminate ].
    intros [= <-] Hnull. now exists r, w'.
  - intros a s h. unfold mkf_IOAVServiceCreateWithService.
    rewrite exec_call_then.
    destruct (m (IOAVServiceCreateWithService a s) w) as [[r w'] | ]; simpl;
      [ | discriminate ].
    intros [= <-] Hnull. now exists r, w'.
  - intros h chip reg data len status.
    unfold mkf_IOAVServiceWriteI2C. run_call.
    unfold returned; simpl.
    destruct (m _ w) as [[s w'] | ]; simpl; [ | discriminate ].
    intros [= <-]. now exists w'.
  - intros h chip reg data len status.
    unfold mkf_IOAVServiceReadI2C. run_call.
    unfold returned; simpl.
    destruct (m _ w) as [[s w'] | ]; simpl; [ | discriminate ].
    intros [= <-]. now exists w'.
Qed.

(** Against the mock framework: a constructor that fails yields the null
    pointer, and a read that fails with 0xE00002C2 yields 0xE00002C2. *)
Lemma shim_surfaces_failures_verbatim_witness :
  exec Mock.framework (mkf_IOAVServiceCreateWithService Mock.allocator 0)
    Mock.boot
  = ([IOAVServiceCreateWithService Mock.allocator 0],
     Some (NULL, Mock.boot))
  /\ exec Mock.framework
       (mkf_IOAVServiceReadI2C (VoidP 0x1000) 0x37 0x51 (VoidP 0x2000) 11)
       Mock.boot
     = ([IOAVServiceReadI2C (CFType 0x1000) 0x37 0x51 (VoidP 0x2000) 11],
        Some (0xE00002C2, Mock.boot)).
Proof.
  destruct (shim_surfaces_failures_verbatim Mock.World Mock.framework
              Mock.boot) as (_ & HcreateWith & _ & Hread & _).
  split.
  - apply (HcreateWith Mock.allocator 0 (CFType 0) Mock.boot);
      reflexivity.
  - apply (Hread (VoidP 0x1000) 0x37 0x51 (VoidP 0x2000) 11);
      [ reflexivity | unfold kIOReturnSuccess; lia ].
Defined.

(** ** Boundary inputs *)

(** C6. A zero length and a null buffer take the same path as any other
    input: with a zero length (any buffer) or with a null buffer (any
    length), [mkf_IOAVServiceWriteI2C] and [mkf_IOAVServiceReadI2C] still
    perform their single framework call, with the zero length or the null
    buffer among its arguments, and give its outcome. *)
Theorem boundary_inputs_forwarded
    (W : Type) (m : Machine W) (w : W) (service : voidp)
    (chip reg : uint32_t) :
  (forall data,
      exec m (mkf_IOAVServiceWriteI2C service chip reg data 0) w
      = ([IOAVServiceWriteI2C (CFType (voidp_addr service)) chip reg data 0],
         m (IOAVServiceWriteI2C (CFType (voidp_addr service)) chip reg data
              0) w))
  /\ (forall len,
      exec m (mkf_IOAVServiceWriteI2C service chip reg NULL len) w
      = ([IOAVServiceWriteI2C (CFType (voidp_addr service)) chip reg
            (VoidP 0) len],
         m (IOAVServiceWriteI2C (CFType (voidp_addr service)) chip reg
              (VoidP 0) len) w))
  /\ (forall data,
      exec m (mkf_IOAVServiceReadI2C service chip reg data 0) w
      = ([IOAVServiceReadI2C (CFType (voidp_addr service)) chip reg data 0],
         m (IOAVServiceReadI2C (CFType (voidp_addr service)) chip reg data
              0) w))
  /\ (forall len,
      exec m (mkf_IOAVServiceReadI2C service chip reg NULL len) w
      = ([IOAVServiceReadI2C (CFType (voidp_addr service)) chip reg
            (VoidP 0) len],
         m (IOAVServiceReadI2C (CFType (voidp_addr service)) chip reg
              (VoidP 0) len) w)).
Proof.
  repeat split; intros;
    first
      [ exact (exec_call W m
                 (IOAVServiceWriteI2C (voidp_to_IOAVServiceRef service) chip
                    reg _ _) w)
      | exact (exec_call W m
                 (IOAVServiceReadI2C (voidp_to_IOAVServiceRef service) chip
                    reg _ _) w) ].
Qed.

(** ** No state, no access to the handle *)

Lemma shim_calls (W : Type) (m : Machine W) (w : W) (c : shim_call) :
  calls (exec m (shim c) w) = [spec_delegate c].
Proof. rewrite shim_delegates. reflexivity. Qed.

Lemma shim_final_state (W : Type) (m : Machine W) (w : W) (c : shim_call) :
  final_state (exec m (shim c) w) = option_map snd (m (spec_delegate c) w).
Proof.
  rewrite shim_delegates. unfold final_state, map_result, answer; simpl.
  destruct (m (spec_delegate c) w) as [[x w'] | ]; reflexivity.
Qed.

Lemma shim_returned (W : Type) (m : Machine W) (w : W) (c : shim_call) :
  returned (exec m (shim c) w)
  = option_map (spec_result c) (option_map fst (m (spec_delegate c) w)).
Proof.
  rewrite shim_delegates. unfold returned, map_result, answer; simpl.
  destruct (m (spec_delegate c) w) as [[x w'] | ]; reflexivity.
Qed.

(** C7. The shim keeps no state: two calls of [mkf_IOAVServiceCreate] with
    the same allocator perform two framework calls, the second in the state
    the first one left, and return the framework's two handles; the value any
    of the four functions returns is determined by its arguments and by the
    value the framework returned for that call, whatever the framework, its
    state and the calls made before; and the state after a call is the one
    the framework call left. *)
Theorem shim_is_stateless :
  (forall (W : Type) (m : Machine W) (w : W) (allocator : CFAllocatorRef),
      exec m (h1 <- mkf_IOAVServiceCreate allocator ;;
              h2 <- mkf_IOAVServiceCreate allocator ;;
              Ret (h1, h2)) w
      = match m (IOAVServiceCreate allocator) w with
        | None => ([IOAVServiceCreate allocator], None)
        | Some (r1, w1) =>
            match m (IOAVServiceCreate allocator) w1 with
            | None =>
                ([IOAVServiceCreate allocator; IOAVServiceCreate allocator],
                 None)
            | Some (r2, w2) =>
                ([IOAVServiceCreate allocator; IOAVServiceCreate allocator],
                 Some ((VoidP (cf_addr r1), VoidP (cf_addr r2)), w2))
            end
        end)
  /\ (forall (c : shim_call) (W1 W2 : Type) (m1 : Machine W1)
        (m2 : Machine W2) (w1 : W1) (w2 : W2),
      option_map fst (m1 (spec_delegate c) w1)
      = option_map fst (m2 (spec_delegate c) w2) ->
      returned (exec m1 (shim c) w1) = returned (exec m2 (shim c) w2))
  /\ (forall (c : shim_call) (W : Type) (m : Machine W) (w : W),
      final_state (exec m (shim c) w)
      = option_map snd (m (spec_delegate c) w)).
Proof.
  split; [ | split ].
  - intros W m w a. unfold mkf_IOAVServiceCreate. simpl.
    destruct (m (IOAVServiceCreate a) w) as [[r1 w1] | ]; [ | reflexivity ].
    destruct (m (IOAVServiceCreate a) w1) as [[r2 w2] | ]; reflexivity.
  - intros c W1 W2 m1 m2 w1 w2 H. rewrite !shim_returned. now rewrite H.
  - intros c W m w. apply shim_final_state.
Qed.

(** Against the mock framework: two calls with the same allocator return the
    two handles the framework made, 0x1000 and 0x1010; and the first handle
    is the same in a state that differs only in what the framework ignores. *)
Lemma shim_is_stateless_witness :
  returned (exec Mock.framework
              (h1 <- mkf_IOAVServiceCreate Mock.allocator ;;
               h2 <- mkf_IOAVServiceCreate Mock.allocator ;;
               Ret (h1, h2)) Mock.boot)
  = Some (VoidP 0x1000, VoidP 0x1010)
  /\ returned (exec Mock.framework (shim (Create Mock.allocator)) Mock.boot)
     = returned (exec Mock.framework (shim (Create Mock.allocator))
                   (Mock.mkWorld 0x1000 0 [(0x1000, 0x37, 0x51, 0x2000, 4)])).
Proof.
  destruct shim_is_stateless as (Htwice & Hdet & _).
  split.
  - rewrite Htwice. reflexivity.
  - apply Hdet. reflexivity.
Defined.

(** C8. No function of the shim reads, writes, allocates or frees memory:
    the only effect of a call is a framework call.  The address of the
    handle the framework receives is the address the caller passed, the
    address of the handle a constructor returns is the address the framework
    returned, for every value (no validation), and the state after the call
    is the one the framework left. *)
Theorem shim_only_relays_handle
    (W : Type) (m : Machine W) (w : W) (c : shim_call) :
  forallb is_framework_call (calls (exec m (shim c) w)) = true
  /\ map handle_received (calls (exec m (shim c) w)) = [handle_given c]
  /\ final_state (exec m (shim c) w) = option_map snd (m (spec_delegate c) w)
  /\ (forall allocator,
        option_map voidp_addr
          (returned (exec m (mkf_IOAVServiceCreate allocator) w))
        = option_map (fun rw => cf_addr (fst rw))
            (m (IOAVServiceCreate allocator) w))
  /\ (forall allocator service,
        option_map voidp_addr
          (returned
             (exec m (mkf_IOAVServiceCreateWithService allocator service) w))
        = option_map (fun rw => cf_addr (fst rw))
            (m (IOAVServiceCreateWithService allocator service) w)).
Proof.
  rewrite shim_calls.
  split; [ | split; [ | split; [ | split ] ] ].
  - destruct c; reflexivity.
  - destruct c; reflexivity.
  - apply shim_final_state.
  - intro a. unfold mkf_IOAVServiceCreate. rewrite exec_call_then.
    destruct (m (IOAVServiceCreate a) w) as [[r w'] | ]; reflexivity.
  - intros a s. unfold mkf_IOAVServiceCreateWithService.
    rewrite exec_call_then.
    destruct (m (IOAVServiceCreateWithService a s) w) as [[r w'] | ];
      reflexivity.
Qed.

(** ** Handles through both casts *)

(** Case analysis on the answer of the environment to an effect. *)
Ltac case_answer :=
  match goal with
  | |- context [match ?a with Some _ => _ | None => _ end] =>
      destruct a as [[? ?] | ]
  end.

(** C9. Casting an [IOAVServiceRef] to [void *] and back gives the same
    reference; so when a handle made by [mkf_IOAVServiceCreate] or
    [mkf_IOAVServiceCreateWithService] is passed to
    [mkf_IOAVServiceWriteI2C] or [mkf_IOAVServiceReadI2C], the framework
    receives in the I2C call the very reference its constructor returned. *)
Theorem handle_cast_round_trip :
  (forall r : IOAVServiceRef,
      voidp_to_IOAVServiceRef (IOAVServiceRef_to_voidp r) = r)
  /\ (forall (W : Type) (m : Machine W) (w : W) allocator chip reg data len,
      exec m (h <- mkf_IOAVServiceCreate allocator ;;
              mkf_IOAVServiceWriteI2C h chip reg data len) w
      = match m (IOAVServiceCreate allocator) w with
        | None => ([IOAVServiceCreate allocator], None)
        | Some (r, w1) =>
            ([IOAVServiceCreate allocator;
              IOAVServiceWriteI2C r chip reg data len],
             m (IOAVServiceWriteI2C r chip reg data len) w1)
        end)
  /\ (forall (W : Type) (m : Machine W) (w : W) allocator chip reg data len,
      exec m (h <- mkf_IOAVServiceCreate allocator ;;
              mkf_IOAVServiceReadI2C h chip reg data len) w
      = match m (IOAVServiceCreate allocator) w with
        | None => ([IOAVServiceCreate allocator], None)
        | Some (r, w1) =>
            ([IOAVServiceCreate allocator;
              IOAVServiceReadI2C r chip reg data len],
             m (IOAVServiceReadI2C r chip reg data len) w1)
        end)
  /\ (forall (W : Type) (m : Machine W) (w : W) allocator service chip reg
        data len,
      exec m (h <- mkf_IOAVServiceCreateWithService allocator service ;;
              mkf_IOAVServiceWriteI2C h chip reg data len) w
      = match m (IOAVServiceCreateWithService allocator service) w with
        | None => ([IOAVServiceCreateWithService allocator service], None)
        | Some (r, w1) =>
            ([IOAVServiceCreateWithService allocator service;
              IOAVServiceWriteI2C r chip reg data len],
             m (IOAVServiceWriteI2C r chip reg data len) w1)
        end)
  /\ (forall (W : Type) (m : Machine W) (w : W) allocator service chip reg
        data len,
      exec m (h <- mkf_IOAVServiceCreateWithService allocator service ;;
              mkf_IOAVServiceReadI2C h chip reg data len) w
      = match m (IOAVServiceCreateWithService allocator service) w with
        | None => ([IOAVServiceCreateWithService allocator service], None)
        | Some (r, w1) =>
            ([IOAVServiceCreateWithService allocator service;
              IOAVServiceReadI2C r chip reg data len],
             m (IOAVServiceReadI2C r chip reg data len) w1)
        end).
Proof.
  split; [ exact ref_of_voidp_of_ref | ].
  repeat split; intros;
    unfold mkf_IOAVServiceCreate, mkf_IOAVServiceCreateWithService,
      mkf_IOAVServiceWriteI2C, mkf_IOAVServiceReadI2C; simpl;
    (case_answer; [ | reflexivity ]);
    rewrite ref_of_voidp_of_ref;
    (case_answer; reflexivity).
Qed.

(** ** Totality *)

(** C10. For every input, each of the four functions performs exactly one
    effect, the call of its framework function, and returns exactly when
    that call returns.  This includes the calls the header rules out by
    [_Nonnull]: a null [service] or a null [data] reaches the framework as
    null. *)
Theorem shim_calls_framework_exactly_once
    (W : Type) (m : Machine W) (w : W) :
  (forall c : shim_call,
      calls (exec m (shim c) w) = [spec_delegate c]
      /\ returns (exec m (shim c) w)
         = match m (spec_delegate c) w with
           | Some _ => true
           | None => false
           end)
  /\ (forall chip reg data len,
      header_nonnull_ok (WriteI2C NULL chip reg data len) = false
      /\ exec m (mkf_IOAVServiceWriteI2C NULL chip reg data len) w
         = ([IOAVServiceWriteI2C (CFType 0) chip reg data len],
            m (IOAVServiceWriteI2C (CFType 0) chip reg data len) w))
  /\ (forall service chip reg len,
      header_nonnull_ok (WriteI2C service chip reg NULL len) = false
      /\ exec m (mkf_IOAVServiceWriteI2C service chip reg NULL len) w
         = ([IOAVServiceWriteI2C (CFType (voidp_addr service)) chip reg
               (VoidP 0) len],
            m (IOAVServiceWriteI2C (CFType (voidp_addr service)) chip reg
                 (VoidP 0) len) w))
  /\ (forall chip reg data len,
      header_nonnull_ok (ReadI2C NULL chip reg data len) = false
      /\ exec m (mkf_IOAVServiceReadI2C NULL chip reg data len) w
         = ([IOAVServiceReadI2C (CFType 0) chip reg data len],
            m (IOAVServiceReadI2C (CFType 0) chip reg data len) w))
  /\ (forall service chip reg len,
      header_nonnull_ok (ReadI2C service chip reg NULL len) = false
      /\ exec m (mkf_IOAVServiceReadI2C service chip reg NULL len) w
         = ([IOAVServiceReadI2C (CFType (voidp_addr service)) chip reg
               (VoidP 0) len],
            m (IOAVServiceReadI2C (CFType (voidp_addr service)) chip reg
                 (VoidP 0) len) w)).
Proof.
  split; [ | repeat split ].
  - intro c. split; [ apply shim_calls | ].
    rewrite shim_delegates. unfold returns, map_result, answer; simpl.
    destruct (m (spec_delegate c) w) as [[x w'] | ]; reflexivity.
  - unfold mkf_IOAVServiceWriteI2C. run_call. reflexivity.
  - simpl. apply andb_false_r.
  - unfold mkf_IOAVServiceWriteI2C. run_call. reflexivity.
  - unfold mkf_IOAVServiceReadI2C. run_call. reflexivity.
  - simpl. apply andb_false_r.
  - unfold mkf_IOAVServiceReadI2C. run_call. reflexivity.
Qed.

(** ** The shim against the mock framework *)

Example mock_write_then_read :
  exec Mock.framework
    (h <- mkf_IOAVServiceCreate Mock.allocator ;;
     s1 <- mkf_IOAVServiceWriteI2C h 0x37 0x51 (VoidP 0x2000) 4 ;;
     s2 <- mkf_IOAVServiceReadI2C h 0x37 0x51 (VoidP 0x3000) 11 ;;
     Ret (h, s1, s2)) Mock.boot
  = ([IOAVServiceCreate Mock.allocator;
      IOAVServiceWriteI2C (CFType 0x1000) 0x37 0x51 (VoidP 0x2000) 4;
      IOAVServiceReadI2C (CFType 0x1000) 0x37 0x51 (VoidP 0x3000) 11],
     Some ((VoidP 0x1000, 0, 0xE00002C2),
           Mock.mkWorld 0x1010 0xE00002C2
             [(0x1000, 0x37, 0x51, 0x2000, 4)])).
Proof. reflexivity. Qed.

Example mock_null_service_reaches_framework :
  exec Mock.framework (mkf_IOAVServiceWriteI2C NULL 0x37 0x51 NULL 0)
    Mock.boot
  = ([IOAVServiceWriteI2C (CFType 0) 0x37 0x51 (VoidP 0) 0],
     Some (0xE00002BC, Mock.boot)).
Proof. reflexivity. Qed.

Example mock_heap_effect_does_not_return :
  exec Mock.framework (p <- call (Malloc 8) ;; Ret p) Mock.boot
  = ([Malloc 8], None).
Proof. reflexivity. Qed.

(** * Callers: how the four functions compose *)

Lemma exec_link_shim_invoke (R W : Type) (m : Machine W) (c : shim_call)
    (k : shim_ret c -> Client R) (w : W) :
  exec m (link_shim (Invoke c k)) w
  = match m (spec_delegate c) w with
    | Some (x, w') =>
        let (t, o) := exec m (link_shim (k (spec_result c x))) w' in
        (spec_delegate c :: t, o)
    | None => ([spec_delegate c], None)
    end.
Proof.
  simpl link_shim. rewrite exec_bind, shim_delegates.
  unfold map_result, answer; simpl.
  destruct (m (spec_delegate c) w) as [[x w'] | ]; simpl; [ | reflexivity ].
  destruct (exec m (link_shim (k (spec_result c x))) w'); reflexivity.
Qed.

(** X1. The shim is transparent to its callers: a caller making any number
    of calls through the four [mkf_] functions, each depending on the
    results of the earlier ones and interleaved with effects of its own,
    performs the same effects in the same order, returns the same value and
    leaves the same state as that caller calling the private framework
    functions directly (handles converted by the two casts), whatever the
    framework does, including when one of its calls does not return. *)
Theorem shim_is_transparent (R W : Type) (m : Machine W) (p : Client R) :
  forall w : W, exec m (link_shim p) w = exec m (link_direct p) w.
Proof.
  induction p as [r | e k IH | c k IH]; intro w.
  - reflexivity.
  - simpl. destruct (m e w) as [[x w'] | ]; [ | reflexivity ].
    now rewrite IH.
  - rewrite exec_link_shim_invoke. simpl.
    destruct (m (spec_delegate c) w) as [[x w'] | ]; [ | reflexivity ].
    now rewrite IH.
Qed.

(** X2. Across a whole caller, the shim adds no effect of its own: when
    every effect the caller performs itself satisfies [P], every effect of
    the run satisfies [P] or is a call of one of the four private framework
    functions.  With [P] never true: a caller that only goes through the
    interface causes no memory access and no allocation. *)
Theorem shim_adds_no_effect (R W : Type) (m : Machine W) (P : Event -> bool)
    (p : Client R) :
  own_effects P p ->
  forall w : W,
    forallb (fun e => is_framework_call e || P e)
      (calls (exec m (link_shim p) w)) = true.
Proof.
  induction p as [r | e k IH | c k IH]; intros Hown w.
  - reflexivity.
  - destruct Hown as [HP Hk]. simpl link_shim. simpl exec.
    destruct (m e w) as [[x w'] | ].
    + specialize (IH x (Hk x) w').
      destruct (exec m (link_shim (k x)) w') as [t o].
      unfold calls in *; simpl in *. rewrite HP, IH.
      now rewrite orb_true_r.
    + unfold calls; simpl. rewrite HP. now rewrite orb_true_r.
  - rewrite exec_link_shim_invoke.
    assert (Hcall : is_framework_call (spec_delegate c) = true)
      by (destruct c; reflexivity).
    destruct (m (spec_delegate c) w) as [[x w'] | ].
    + specialize (IH (spec_result c x) (Hown (spec_result c x)) w').
      destruct (exec m (link_shim (k (spec_result c x))) w') as [t o].
      unfold calls in *; simpl in *. now rewrite Hcall, IH.
    + unfold calls; simpl. now rewrite Hcall.
Qed.

(** The caller [Mock.probe] performs no effect of its own, so its run against
    the mock framework consists of framework calls only. *)
Lemma shim_adds_no_effect_witness :
  forallb (fun e => is_framework_call e || false)
    (calls (exec Mock.framework (link_shim Mock.probe) Mock.boot)) = true.
Proof.
  apply (shim_adds_no_effect _ _ Mock.framework (fun _ => false) Mock.probe).
  simpl. intros. exact I.
Defined.



(** X4. The two casts of the shim are inverse to each other in both
    directions, so each is one-to-one, and each maps the null pointer to the
    null pointer and nothing else to it: a caller's pointer and the
    framework's reference name each other exactly. *)
Theorem handle_casts_are_bijections :
  (forall p : voidp,
      IOAVServiceRef_to_voidp (voidp_to_IOAVServiceRef p) = p)
  /\ (forall r : IOAVServiceRef,
      voidp_to_IOAVServiceRef (IOAVServiceRef_to_voidp r) = r)
  /\ (forall p q : voidp,
      voidp_to_IOAVServiceRef p = voidp_to_IOAVServiceRef q <-> p = q)
  /\ (forall r s : IOAVServiceRef,
      IOAVServiceRef_to_voidp r = IOAVServiceRef_to_voidp s <-> r = s)
  /\ (forall p : voidp,
      ref_is_null (voidp_to_IOAVServiceRef p) = voidp_is_null p)
  /\ (forall r : IOAVServiceRef,
      IOAVServiceRef_to_voidp r = NULL <-> ref_is_null r = true).
Proof.
  repeat split.
  - apply voidp_of_ref_of_voidp.
  - apply ref_of_voidp_of_ref.
  - intro H. rewrite <- (voidp_of_ref_of_voidp p), H.
    apply voidp_of_ref_of_voidp.
  - now intros ->.
  - intro H. rewrite <- (ref_of_voidp_of_ref r), H.
    apply ref_of_voidp_of_ref.
  - now intros ->.
  - destruct r as [a]. unfold IOAVServiceRef_to_voidp, NULL, ref_is_null.
    simpl. intros [= ->]. reflexivity.
  - apply null_ref_to_voidp.
Qed.

(** ** Callers against the mock framework *)

Example mock_set_brightness :
  exec Mock.with_heap (link_shim Mock.set_brightness) Mock.boot
  = ([IOAVServiceCreate Mock.allocator;
      Store 0x2000 0x51;
      IOAVServiceWriteI2C (CFType 0x1000) 0x37 0x51 (VoidP 0x2000) 4],
     Some ((VoidP 0x1000, 0),
           Mock.mkWorld 0x1010 0xE00002C2
             [(0x1000, 0x37, 0x51, 0x2000, 4)])).
Proof. reflexivity. Qed.

Example mock_set_brightness_without_heap :
  exec Mock.framework (link_shim Mock.set_brightness) Mock.boot
  = ([IOAVServiceCreate Mock.allocator; Store 0x2000 0x51], None).
Proof. reflexivity. Qed.
